(** * CldrDateTimeFormatterBuilder: the locale-text builder extension of js-joda-locale

    A shallow embedding of
    [packages/js-joda-locale.publish/src/format/cldr/CldrDateTimeFormatterBuilder.js].

    The JavaScript class extends js-joda's [DateTimeFormatterBuilder] with
    [appendText] (three forms resolved by the shape of the second argument),
    [appendLocalizedOffset] and [appendZoneText].  Methods mutate the builder
    object they are called on and either return a value or throw; both are
    kept explicit here: a method is a function from the object store to a
    completion (normal return or thrown exception) and the store it leaves
    behind.  A throw does not roll the store back, so "nothing was appended
    before the error" is a property that has to be proved, not one the model
    grants.

    The file has three parts: the builder (values, exceptions, store, the
    six methods), the text engine that a text printer/parser runs on (text
    store, text provider, print and parse, which the source imports from
    modules outside this file), and the properties of both. *)

From Stdlib Require Import ZArith String Ascii List Lia DecimalString Sorted.
From stdpp Require Import base option list gmap strings.

Local Open Scope Z_scope.
Local Open Scope string_scope.

(** ** Values the builder methods receive *)

(** Modelled from the spec: [ChronoField] is imported from 'js-joda' and not
    part of this file; the specification treats a field as an opaque
    identifier for a calendar unit (month-of-year, day-of-week, era, ...). *)
Inductive ChronoField : Type :=
| mkChronoField (name : string).

(** Modelled from the spec: [TextStyle] is imported from 'js-joda'; the
    specification enumerates the styles FULL, FULL_STANDALONE, SHORT,
    SHORT_STANDALONE, NARROW, NARROW_STANDALONE.  The source names only
    [TextStyle.FULL]. *)
Inductive TextStyle : Type :=
| FULL | FULL_STANDALONE | SHORT | SHORT_STANDALONE | NARROW | NARROW_STANDALONE.

(** A text: a JavaScript string as the sequence of its UTF-16 code units,
    so that its length and its characters are those the code sees. *)
Definition Text : Type := list N.

(** A value-to-text map as a caller writes it ([{1: "JNY", 2: "FBY"}]):
    entries in insertion order. *)
Definition TextMapping : Type := list (Z * Text).

(** Object identity of a builder. *)
Definition loc : Type := positive.

(** The JavaScript values that can reach the parameters [field],
    [styleOrMap], [textStyle] and [textLookup], and the value a method
    returns. *)
Inductive Value : Type :=
| undefined
| null
| JNumber (n : Z)
| JString (s : string)
| JChronoField (f : ChronoField)
| JTextStyle (s : TextStyle)
| JObject (entries : TextMapping)
| JBuilder (l : loc).

(** The two classes the source tests with [instanceof]. *)
Inductive Class : Type := ClassChronoField | ClassTextStyle.

(** [value instanceof cls] *)
Definition instanceOf (value : Value) (cls : Class) : bool :=
  match value, cls with
  | JChronoField _, ClassChronoField => true
  | JTextStyle _, ClassTextStyle => true
  | _, _ => false
  end.

(** [value === undefined] *)
Definition isUndefined (value : Value) : bool :=
  match value with
  | undefined => true
  | _ => false
  end.

(** Null or missing: [null] and [undefined]. *)
Definition isNullish (value : Value) : bool :=
  match value with
  | undefined | null => true
  | _ => false
  end.

(** ** Exceptions *)

(** What an argument check found wrong. *)
Inductive ArgumentFault : Type := NullArgument | WrongInstance.

(** [IllegalArgumentException] is the class the source throws itself.
    [InvalidArgumentError] is the specification's name for what the argument
    checks of '../../assert' raise (that module is not part of this file). *)
Inductive Exception : Type :=
| IllegalArgumentException (message : string)
| InvalidArgumentError (fault : ArgumentFault) (parameterName : string).

(** The message of the three placeholder operations. *)
Definition notImplementedMessage : string :=
  "js-joda-locale: Pattern using (localized) text not implemented yet!".

(** The specification's error taxonomy read on the exceptions of the code:
    its NotImplementedError is the [IllegalArgumentException] that carries
    the not-implemented message. *)
Definition isNotImplementedError (e : Exception) : bool :=
  match e with
  | IllegalArgumentException message => String.eqb message notImplementedMessage
  | InvalidArgumentError _ _ => false
  end.

Definition isInvalidArgumentError (e : Exception) : bool :=
  match e with
  | InvalidArgumentError _ _ => true
  | IllegalArgumentException _ => false
  end.

(** ** Printer/parsers and the builder object *)

(** Modelled from the spec: the text providers, where a text printer/parser
    gets its text from.  [CldrDateTimeTextProvider] is the class the source
    constructs (imported from './CldrDateTimeTextProvider', not part of this
    file), the specification's standard provider; [CustomMapTextProvider] is
    the specification's provider over one caller-supplied map, which the
    source never constructs. *)
Inductive TextProvider : Type :=
| CldrDateTimeTextProvider
| CustomMapTextProvider (textLookup : TextMapping).

(** Modelled from the spec: the units of the formatter pipeline.
    [TextPrinterParser] is imported from '../parser/TextPrinterParser' and
    not part of this file; [new TextPrinterParser(field, textStyle, provider)]
    is taken to keep its three arguments, the two construction-time
    parameters of the specification and the provider.  A builder can also
    hold printer/parsers appended by the base class, which this file only
    tells apart by a label. *)
Inductive PrinterParser : Type :=
| TextPrinterParser (field textStyle : Value) (provider : TextProvider)
| BasePrinterParser (label : string).

(** Modelled from the spec: the base class [DateTimeFormatterBuilder] is not
    part of this file; the specification describes it as the formatter
    under construction, a sequence of printer/parsers chained into a
    pipeline. *)
Record DateTimeFormatterBuilder : Type := mkBuilder {
  _printerParsers : list PrinterParser
}.

(** The object store: builders by identity. *)
Abbreviation Heap := (gmap loc DateTimeFormatterBuilder).

(** ** Method results: completion and store *)

Inductive Completion (A : Type) : Type :=
| Normal (a : A)
| Throw (e : Exception).
Arguments Normal {A} a.
Arguments Throw {A} e.

Definition M (A : Type) : Type := Heap -> Completion A * Heap.

#[global] Instance M_ret : MRet M := fun A a h => (Normal a, h).

#[global] Instance M_bind : MBind M := fun A B f m h =>
  match m h with
  | (Normal a, h') => f a h'
  | (Throw e, h') => (Throw e, h')
  end.

(** [throw e] *)
Definition throw {A : Type} (e : Exception) : M A := fun h => (Throw e, h).

(** In-place update of the object at [l].  A method runs on an object of
    the store; for an [l] the store does not hold there is nothing to
    update. *)
Definition update (l : loc) (f : DateTimeFormatterBuilder -> DateTimeFormatterBuilder) : M unit :=
  fun h => (Normal tt, alter f l h).

(** The printer/parsers of the builder at [l] (none for a dangling [l]). *)
Definition printerParsers (h : Heap) (l : loc) : list PrinterParser :=
  match h !! l with
  | Some b => _printerParsers b
  | None => []
  end.

(** ** Collaborators of the source that live in other modules *)

(** Modelled from the spec: [requireNonNull] of '../../assert' is not part
    of this file.  Specification, error taxonomy: a null or missing
    required argument raises InvalidArgumentError, synchronously. *)
Definition requireNonNull (value : Value) (parameterName : string) : M Value :=
  if isNullish value then throw (InvalidArgumentError NullArgument parameterName)
  else mret value.

(** Modelled from the spec: [requireInstance] of '../../assert' is not part
    of this file.  Specification, error taxonomy: an argument of the wrong
    kind raises InvalidArgumentError, synchronously. *)
Definition requireInstance (value : Value) (cls : Class) (parameterName : string) : M Value :=
  if instanceOf value cls then mret value
  else throw (InvalidArgumentError WrongInstance parameterName).

(** Modelled from the spec: [_appendInternal] of the base class is not part
    of this file.  Specification, system overview: the builder extension
    appends a printer/parser into the formatter under construction. *)
Definition _appendInternal (this : loc) (pp : PrinterParser) : M unit :=
  update this (fun b => mkBuilder (_printerParsers b ++ [pp])).

(** ** The methods of [CldrDateTimeFormatterBuilder] *)

Module CldrDateTimeFormatterBuilder.

(** [appendLocalizedOffset() { throw new IllegalArgumentException(...) }] *)
Definition appendLocalizedOffset (this : loc) : M Value :=
  throw (IllegalArgumentException notImplementedMessage).

(** [appendZoneText() { throw new IllegalArgumentException(...) }] *)
Definition appendZoneText (this : loc) : M Value :=
  throw (IllegalArgumentException notImplementedMessage).

(** [appendTextFieldStyle(field, textStyle)] *)
Definition appendTextFieldStyle (this : loc) (field textStyle : Value) : M Value :=
  requireNonNull field "field" ;;
  requireInstance field ClassChronoField "field" ;;
  requireNonNull textStyle "textStyle" ;;
  requireInstance textStyle ClassTextStyle "textStyle" ;;
  _appendInternal this (TextPrinterParser field textStyle CldrDateTimeTextProvider) ;;
  mret (JBuilder this).

(** [appendTextField(field) { return this.appendTextFieldStyle(field, TextStyle.FULL); }] *)
Definition appendTextField (this : loc) (field : Value) : M Value :=
  appendTextFieldStyle this field (JTextStyle FULL).

(** [appendTextFieldMap(field, textLookup)]: three argument checks, then the
    throw; the [return this] that follows the throw in the source is kept
    as the (unreachable) continuation. *)
Definition appendTextFieldMap (this : loc) (field textLookup : Value) : M Value :=
  requireNonNull field "field" ;;
  requireInstance field ClassChronoField "field" ;;
  requireNonNull textLookup "textLookup" ;;
  @throw unit (IllegalArgumentException notImplementedMessage) ;;
  mret (JBuilder this).

(** [appendText(field, styleOrMap)]: the overload resolution. *)
Definition appendText (this : loc) (field styleOrMap : Value) : M Value :=
  if isUndefined styleOrMap then appendTextField this field
  else if instanceOf styleOrMap ClassTextStyle then appendTextFieldStyle this field styleOrMap
  else appendTextFieldMap this field styleOrMap.

End CldrDateTimeFormatterBuilder.

(** ** The text engine behind a text printer/parser

    [TextPrinterParser] and [CldrDateTimeTextProvider] are imported by the
    source ('../parser/TextPrinterParser', './CldrDateTimeTextProvider') and
    are not part of this file.  What follows is the specification's design
    of them (component design: Text Store, Text Provider, Field Text
    Printer/Parser), definition by definition. *)

(** Modelled from the spec: [Locale], an opaque key (language/region
    identifier) that selects the text mapping of a (field, style). *)
Inductive Locale : Type :=
| mkLocale (tag : string).

(** Modelled from the spec: the failures of the text engine.
    InvalidMappingError: a store built from ambiguous data;
    UnsupportedStyleError: a custom-map provider asked for a style other
    than FULL. *)
Inductive TextError : Type := InvalidMappingError | UnsupportedStyleError.

(** Modelled from the spec: an operation of the text engine yields its
    result or one of the failures above. *)
Inductive Result (A : Type) : Type :=
| Ok (a : A)
| Failed (e : TextError).
Arguments Ok {A} a.
Arguments Failed {A} e.

#[global] Instance TextStyle_eq_dec : EqDecision TextStyle.
Proof. solve_decision. Defined.

(** Styles are opaque keys: all the engine does with two of them is
    compare them. *)
Definition styleEqb (s1 s2 : TextStyle) : bool := bool_decide (s1 = s2).

(** Modelled from the spec: the enumeration of styles, in its order. *)
Definition allStyles : list TextStyle :=
  [FULL; FULL_STANDALONE; SHORT; SHORT_STANDALONE; NARROW; NARROW_STANDALONE].

(** Identical texts: the same code units. *)
Definition textEqb (t1 t2 : Text) : bool := bool_decide (t1 = t2).

(** The code units of a literal written in ASCII. *)
Definition text (literal : string) : Text :=
  map N_of_ascii (list_ascii_of_string literal).

Module TextStore.

(** Modelled from the spec: the Text Store, an index over the
    style-specific mappings registered with it, kept in registration
    order. *)
Record t : Type := mkTextStore {
  registered : list (TextStyle * TextMapping)
}.

(** Modelled from the spec: the entries registered for exactly [style], in
    registration order. *)
Definition entriesFor (store : t) (style : TextStyle) : TextMapping :=
  flat_map (fun r => if styleEqb r.1 style then r.2 else []) (registered store).

(** Modelled from the spec: ambiguous data, two different values sharing
    one identical text. *)
Definition ambiguous (m : TextMapping) : bool :=
  existsb (fun e1 => existsb (fun e2 => textEqb e1.2 e2.2 && negb (Z.eqb e1.1 e2.1)) m) m.

(** Modelled from the spec: the store never exposes a text of zero
    length. *)
Definition nonEmptyText (e : Z * Text) : bool :=
  match e.2 with
  | [] => false
  | _ :: _ => true
  end.

(** Modelled from the spec: [build(mappings)].  Fails with
    InvalidMappingError if, within one style, a text is mapped to two
    different values (the comparison is on identical strings).  Entries
    with a text of zero length are not kept. *)
Definition build (mappings : list (TextStyle * TextMapping)) : Result t :=
  if existsb (fun s => ambiguous (entriesFor (mkTextStore mappings) s)) allStyles
  then Failed InvalidMappingError
  else Ok (mkTextStore (map (fun r => (r.1, List.filter nonEmptyText r.2)) mappings)).

(** Modelled from the spec: [textFor(value, style)], exact lookup, no
    fallback to another style. *)
Definition textFor (store : t) (value : Z) (style : TextStyle) : option Text :=
  snd <$> List.find (fun e => Z.eqb e.1 value) (entriesFor store style).

(** Modelled from the spec: [valueFor(text, style)], exact reverse lookup,
    case-sensitive. *)
Definition valueFor (store : t) (text : Text) (style : TextStyle) : option Z :=
  fst <$> List.find (fun e => textEqb e.2 text) (entriesFor store style).

(** Modelled from the spec: the longest-match order, primary key text
    length descending, secondary key registration order ascending.  It is
    produced by stable insertion: [c], registered before everything in
    [sorted], goes in front of the first candidate that is not longer than
    it. *)
Fixpoint insertCandidate (c : Text * Z) (sorted : list (Text * Z)) : list (Text * Z) :=
  match sorted with
  | [] => [c]
  | d :: rest =>
      if (length d.1 <=? length c.1)%nat then c :: sorted
      else d :: insertCandidate c rest
  end.

(** Modelled from the spec: the candidates in longest-match order. *)
Definition sortCandidates (cs : list (Text * Z)) : list (Text * Z) :=
  foldr insertCandidate [] cs.

(** Modelled from the spec: [parseCandidates(styles)], all (text, value)
    pairs of the given styles, by descending text length, then by
    registration order. *)
Definition parseCandidates (store : t) (styles : list TextStyle) : list (Text * Z) :=
  sortCandidates
    (flat_map (fun r => if existsb (styleEqb r.1) styles
                        then map (fun e => (e.2, e.1)) r.2 else [])
              (registered store)).

End TextStore.

(** Modelled from the spec: the locale data source, an external
    collaborator: for a (field, style, locale) the raw value-to-text
    mapping, or absence. *)
Definition LocaleData : Type := ChronoField -> TextStyle -> Locale -> option TextMapping.

(** Modelled from the spec: the plain integer printer of the pipeline:
    signed decimal, no padding, only negative values carry a sign. *)
Definition printNumber (value : Z) : Text :=
  text (NilZero.string_of_int (Z.to_int value)).

(** Modelled from the spec: does the remaining [input] start with [text],
    character for character? *)
Fixpoint startsWith (input text : Text) {struct text} : bool :=
  match text with
  | [] => true
  | c :: text' =>
      match input with
      | [] => false
      | d :: input' => N.eqb d c && startsWith input' text'
      end
  end.

(** Modelled from the spec: does the remaining [input] start with [text],
    letter case ignored?  Both sides are normalized by [lowerCase], the
    case mapping of the platform, character by character. *)
Fixpoint startsWithIgnoreCase (lowerCase : N -> N) (input text : Text) {struct text} : bool :=
  match text with
  | [] => true
  | c :: text' =>
      match input with
      | [] => false
      | d :: input' =>
          N.eqb (lowerCase d) (lowerCase c) && startsWithIgnoreCase lowerCase input' text'
      end
  end.

(** Modelled from the spec: the outcome of a parse, the value and the number
    of characters consumed, or a failure at the original position. *)
Inductive ParseResult : Type :=
| Parsed (value : Z) (consumed : nat)
| ParseFailure.

Section TextEngine.

(** The external collaborators: the locale data, the case mapping of the
    platform (any mapping of code units; it is not restricted to ASCII), and
    the numeric parser of the pipeline host. *)
Variable localeData : LocaleData.
Variable lowerCase : N -> N.
Variable numberParse : Text -> option (Z * nat).

(** Modelled from the spec: the store of the standard provider.  The
    specification's cache is keyed by (field, style, locale): the store of a
    key is built from the mapping the data source has for that key (an
    empty store when it has none), so that ambiguous data of one style does
    not affect another.  The cache holds the result of this pure
    function. *)
Definition standardStore (field : ChronoField) (style : TextStyle) (locale : Locale)
  : Result TextStore.t :=
  TextStore.build
    match localeData field style locale with
    | Some mapping => [(style, mapping)]
    | None => []
    end.

(** Modelled from the spec: the store behind a provider; a custom-map
    provider is backed by its single map, registered as FULL. *)
Definition storeOf (provider : TextProvider) (field : ChronoField) (style : TextStyle)
    (locale : Locale) : Result TextStore.t :=
  match provider with
  | CldrDateTimeTextProvider => standardStore field style locale
  | CustomMapTextProvider textLookup => TextStore.build [(FULL, textLookup)]
  end.

(** Modelled from the spec: the standard provider serves every style, a
    custom-map provider reports FULL only. *)
Definition supportsStyle (provider : TextProvider) (style : TextStyle) : bool :=
  match provider with
  | CldrDateTimeTextProvider => true
  | CustomMapTextProvider _ => styleEqb style FULL
  end.

(** Modelled from the spec: [getText(field, value, style, locale)]. *)
Definition getText (provider : TextProvider) (field : ChronoField) (value : Z)
    (style : TextStyle) (locale : Locale) : Result (option Text) :=
  if supportsStyle provider style then
    match storeOf provider field style locale with
    | Ok store => Ok (TextStore.textFor store value style)
    | Failed e => Failed e
    end
  else Failed UnsupportedStyleError.

(** Modelled from the spec: [getTextCandidates(field, style, locale)],
    longest first. *)
Definition getTextCandidates (provider : TextProvider) (field : ChronoField)
    (style : TextStyle) (locale : Locale) : Result (list (Text * Z)) :=
  if supportsStyle provider style then
    match storeOf provider field style locale with
    | Ok store => Ok (TextStore.parseCandidates store [style])
    | Failed e => Failed e
    end
  else Failed UnsupportedStyleError.

(** Modelled from the spec: the print contract of the Field Text
    Printer/Parser: the provider's text verbatim, else the number. *)
Definition print (provider : TextProvider) (field : ChronoField) (style : TextStyle)
    (locale : Locale) (value : Z) : Result Text :=
  match getText provider field value style locale with
  | Ok (Some text) => Ok text
  | Ok None => Ok (printNumber value)
  | Failed e => Failed e
  end.

(** Modelled from the spec: the parse contract.  The candidates are scanned
    in their longest-first order for one the remaining input starts with;
    the first match is consumed and yields its value.  The specification
    resolves overlapping candidates by "longest-match and case-insensitive
    fallback rules": the comparison that ignores letter case is the
    fallback, tried when no candidate matches the input as it is written.
    With no text candidate at all the numeric parser decides, and its
    failure is a parse failure at the original position. *)
Definition parse (provider : TextProvider) (field : ChronoField) (style : TextStyle)
    (locale : Locale) (input : Text) : Result ParseResult :=
  match getTextCandidates provider field style locale with
  | Ok candidates =>
      match List.find (fun c => startsWith input c.1) candidates with
      | Some (text, value) => Ok (Parsed value (length text))
      | None =>
          match List.find (fun c => startsWithIgnoreCase lowerCase input c.1) candidates with
          | Some (text, value) => Ok (Parsed value (length text))
          | None =>
              match numberParse input with
              | Some (value, consumed) => Ok (Parsed value consumed)
              | None => Ok ParseFailure
              end
          end
      end
  | Failed e => Failed e
  end.

End TextEngine.

(** The text printer/parser a builder holds, run through the text engine.
    [None] for a printer/parser of the base class, and for a text
    printer/parser whose field or style is not of the required class (the
    builder never appends one, see [appendTextFieldStyle]). *)
Definition printWith (localeData : LocaleData) (pp : PrinterParser) (locale : Locale)
    (value : Z) : option (Result Text) :=
  match pp with
  | TextPrinterParser (JChronoField f) (JTextStyle s) provider =>
      Some (print localeData provider f s locale value)
  | _ => None
  end.

(** The same for parsing the remaining [input]. *)
Definition parseWith (localeData : LocaleData) (lowerCase : N -> N)
    (numberParse : Text -> option (Z * nat))
    (pp : PrinterParser) (locale : Locale) (input : Text) : option (Result ParseResult) :=
  match pp with
  | TextPrinterParser (JChronoField f) (JTextStyle s) provider =>
      Some (parse localeData lowerCase numberParse provider f s locale input)
  | _ => None
  end.

(** A plain signed-decimal reader, the simplest numeric parser a pipeline
    host can supply: an optional minus sign and the longest run of digits,
    at least one. *)
Definition digitValue (c : N) : option Z :=
  if (48 <=? c)%N && (c <=? 57)%N then Some (Z.of_N (c - 48)) else None.

Fixpoint parseDigits (input : Text) (acc : Z) (count : nat) : Z * nat :=
  match input with
  | [] => (acc, count)
  | c :: rest =>
      match digitValue c with
      | Some d => parseDigits rest (10 * acc + d) (S count)
      | None => (acc, count)
      end
  end.

Definition parseDecimal (input : Text) : option (Z * nat) :=
  match input with
  | 45%N :: rest =>
      match parseDigits rest 0 0 with
      | (_, O) => None
      | (v, n) => Some (- v, S n)
      end
  | _ =>
      match parseDigits input 0 0 with
      | (_, O) => None
      | (v, n) => Some (v, n)
      end
  end.

(** ** The properties under study, as predicates on the model *)

(** The value a map holds for a key, as a caller reads it. *)
Definition textOf (m : TextMapping) (value : Z) : option Text :=
  snd <$> List.find (fun e => Z.eqb e.1 value) m.

(** The custom-map form of [appendText] installs a working printer/parser:
    the call returns the builder, the builder holds one more printer/parser,
    a FULL-style text printer/parser over a custom-map provider of [m], and
    that printer/parser prints a mapped value as its text, an unmapped value
    as a number, and parses a mapped text back to its value. *)
Definition installsCustomMap (localeData : LocaleData) (lowerCase : N -> N)
    (numberParse : Text -> option (Z * nat)) (locale : Locale)
    (this : loc) (field : ChronoField) (m : TextMapping) (h : Heap) : Prop :=
  exists (h' : Heap) (pp : PrinterParser),
    CldrDateTimeFormatterBuilder.appendText this (JChronoField field) (JObject m) h
      = (Normal (JBuilder this), h') /\
    pp = TextPrinterParser (JChronoField field) (JTextStyle FULL) (CustomMapTextProvider m) /\
    printerParsers h' this = (printerParsers h this ++ [pp])%list /\
    (forall value text, textOf m value = Some text ->
       printWith localeData pp locale value = Some (Ok text)) /\
    (forall value, textOf m value = None ->
       printWith localeData pp locale value = Some (Ok (printNumber value))) /\
    (forall value text, textOf m value = Some text ->
       exists consumed,
         parseWith localeData lowerCase numberParse pp locale text
           = Some (Ok (Parsed value consumed))).


(** The exception an argument check raises for [value] under the name
    [parameterName]: null or missing first, wrong class second. *)
Definition argumentError (value : Value) (parameterName : string) : Exception :=
  InvalidArgumentError (if isNullish value then NullArgument else WrongInstance) parameterName.

(** The store after [_appendInternal this pp]. *)
Definition appended (this : loc) (pp : PrinterParser) (h : Heap) : Heap :=
  (_appendInternal this pp h).2.

(** ** Sample data for the concrete instances *)

Module Sample.

Definition MONTH_OF_YEAR : ChronoField := mkChronoField "MonthOfYear".
Definition AMPM_OF_DAY : ChronoField := mkChronoField "AmPmOfDay".
Definition ENGLISH : Locale := mkLocale "en".
Definition GERMAN : Locale := mkLocale "de".

(** The map of the specification's example. *)
Definition legacyMonths : TextMapping := [(1, text "JNY"); (2, text "FBY")].

(** Two values whose texts differ in letter case only. *)
Definition caseClash : TextMapping := [(1, text "a"); (2, text "A")].

(** "März", with its a-umlaut as the one code unit 228. *)
Definition maerz : Text := (text "M" ++ [228%N] ++ text "rz")%list.

(** A data source that knows FULL and SHORT month names, English and German,
    the initials of the first five months as NARROW names (two of them the
    same), and the two clashing texts for the am/pm field. *)
Definition data : LocaleData := fun field style locale =>
  match field, style, locale with
  | mkChronoField "MonthOfYear", FULL, mkLocale "de" =>
      Some [(1, text "Januar"); (2, text "Februar"); (3, maerz)]
  | mkChronoField "MonthOfYear", FULL, _ =>
      Some [(1, text "January"); (2, text "February"); (3, text "March")]
  | mkChronoField "MonthOfYear", SHORT, _ =>
      Some [(1, text "Jan"); (2, text "Feb"); (3, text "Mar")]
  | mkChronoField "MonthOfYear", NARROW, _ =>
      Some [(1, text "J"); (2, text "F"); (3, text "M"); (4, text "A"); (5, text "M")]
  | mkChronoField "AmPmOfDay", FULL, _ => Some caseClash
  | _, _, _ => None
  end.

Definition noData : LocaleData := fun _ _ _ => None.

(** A case mapping: the letters A to Z and the Latin-1 capitals (192 to 222,
    the multiplication sign 215 apart) go to the code unit 32 above. *)
Definition lowerCase (c : N) : N :=
  if ((65 <=? c) && (c <=? 90) || (192 <=? c) && (c <=? 222) && negb (c =? 215))%N
  then (c + 32)%N else c.

(** A builder that already holds one printer/parser of the base class. *)
Definition this : loc := 1%positive.
Definition heap : Heap := {[ this := mkBuilder [BasePrinterParser "literal"] ]}.

End Sample.

(** ** Calls as data, for properties of every method and of call sequences *)

(** A call of one of the six methods of the class, with its arguments. *)
Inductive MethodCall : Type :=
| AppendLocalizedOffset
| AppendZoneText
| AppendText (field styleOrMap : Value)
| AppendTextField (field : Value)
| AppendTextFieldStyle (field textStyle : Value)
| AppendTextFieldMap (field textLookup : Value).

(** The call, made on the builder [this]. *)
Definition invoke (this : loc) (call : MethodCall) : M Value :=
  match call with
  | AppendLocalizedOffset => CldrDateTimeFormatterBuilder.appendLocalizedOffset this
  | AppendZoneText => CldrDateTimeFormatterBuilder.appendZoneText this
  | AppendText field styleOrMap =>
      CldrDateTimeFormatterBuilder.appendText this field styleOrMap
  | AppendTextField field => CldrDateTimeFormatterBuilder.appendTextField this field
  | AppendTextFieldStyle field textStyle =>
      CldrDateTimeFormatterBuilder.appendTextFieldStyle this field textStyle
  | AppendTextFieldMap field textLookup =>
      CldrDateTimeFormatterBuilder.appendTextFieldMap this field textLookup
  end.

(** A client that makes the calls one after the other on the same builder
    and carries on after a call that throws (each call in its own
    try/catch): the store it ends with. *)
Fixpoint runScript (this : loc) (calls : list MethodCall) (h : Heap) : Heap :=
  match calls with
  | [] => h
  | call :: rest => runScript this rest (invoke this call h).2
  end.

(** Did the run return? *)
Definition completesNormally {A : Type} (r : Completion A * Heap) : bool :=
  match r.1 with
  | Normal _ => true
  | Throw _ => false
  end.

(** Did the run throw an exception of the given kind? *)
Definition throwsSome {A : Type} (kind : Exception -> bool) (r : Completion A * Heap) : bool :=
  match r.1 with
  | Normal _ => false
  | Throw e => kind e
  end.

(** The style a call of [appendText] ends up with: FULL when the second
    argument is undefined, the argument itself otherwise. *)
Definition styleUsed (styleOrMap : Value) : Value :=
  if isUndefined styleOrMap then JTextStyle FULL else styleOrMap.

(** The field and style a call asks a text printer/parser for; none for the
    placeholders and for the custom-map form. *)
Definition requested (call : MethodCall) : option (Value * Value) :=
  match call with
  | AppendText field styleOrMap => Some (field, styleUsed styleOrMap)
  | AppendTextField field => Some (field, JTextStyle FULL)
  | AppendTextFieldStyle field textStyle => Some (field, textStyle)
  | AppendLocalizedOffset | AppendZoneText | AppendTextFieldMap _ _ => None
  end.

(** What a call contributes to the builder: the text printer/parser asked
    for when the field is a ChronoField and the style a TextStyle, nothing
    otherwise. *)
Definition appendedBy (call : MethodCall) : list PrinterParser :=
  match requested call with
  | Some (field, textStyle) =>
      if instanceOf field ClassChronoField && instanceOf textStyle ClassTextStyle
      then [TextPrinterParser field textStyle CldrDateTimeTextProvider]
      else []
  | None => []
  end.

(** A text printer/parser is well formed when its field is a ChronoField and
    its style a TextStyle. *)
Definition wellFormed (pp : PrinterParser) : bool :=
  match pp with
  | TextPrinterParser field textStyle _ =>
      instanceOf field ClassChronoField && instanceOf textStyle ClassTextStyle
  | BasePrinterParser _ => true
  end.

(** * Properties of the builder methods *)

Section BuilderFacts.

Import CldrDateTimeFormatterBuilder.

Implicit Types (this : loc) (field styleOrMap textStyle textLookup : Value) (h : Heap).

(** What [appendTextFieldStyle] does, case by case, in the order of its
    statements. *)
Lemma appendTextFieldStyle_run this field textStyle h :
  appendTextFieldStyle this field textStyle h =
    if negb (instanceOf field ClassChronoField) then (Throw (argumentError field "field"), h)
    else if negb (instanceOf textStyle ClassTextStyle)
      then (Throw (argumentError textStyle "textStyle"), h)
    else (Normal (JBuilder this),
          appended this (TextPrinterParser field textStyle CldrDateTimeTextProvider) h).
Proof. destruct field, textStyle; reflexivity. Qed.

(** What [appendTextFieldMap] does, case by case. *)
Lemma appendTextFieldMap_run this field textLookup h :
  appendTextFieldMap this field textLookup h =
    if negb (instanceOf field ClassChronoField) then (Throw (argumentError field "field"), h)
    else if isNullish textLookup
      then (Throw (InvalidArgumentError NullArgument "textLookup"), h)
    else (Throw (IllegalArgumentException notImplementedMessage), h).
Proof. destruct field, textLookup; reflexivity. Qed.

(** A builder in the store gets the printer/parser at the end of its
    sequence. *)
Lemma printerParsers_appended this pp h :
  is_Some (h !! this) ->
  printerParsers (appended this pp h) this = (printerParsers h this ++ [pp])%list.
Proof.
  intros [b Hb]. unfold appended, printerParsers, _appendInternal, update. simpl.
  rewrite lookup_alter_eq, Hb. reflexivity.
Qed.

(** Other builders are not touched. *)
Lemma printerParsers_appended_other this other pp h :
  other <> this ->
  printerParsers (appended this pp h) other = printerParsers h other.
Proof.
  intros Hne. unfold appended, printerParsers, _appendInternal, update. simpl.
  rewrite lookup_alter_ne by congruence. reflexivity.
Qed.

(** Both dispatch targets of [appendText] for a defined second argument,
    unfolded. *)
Lemma appendText_run this field styleOrMap h :
  appendText this field styleOrMap h =
    if isUndefined styleOrMap then appendTextFieldStyle this field (JTextStyle FULL) h
    else if instanceOf styleOrMap ClassTextStyle
      then appendTextFieldStyle this field styleOrMap h
    else appendTextFieldMap this field styleOrMap h.
Proof. unfold appendText, appendTextField. destruct styleOrMap; reflexivity. Qed.

(** [appendTextFieldMap] has no normal completion. *)
Lemma appendTextFieldMap_never_returns this field textLookup h v h' :
  appendTextFieldMap this field textLookup h <> (Normal v, h').
Proof.
  rewrite appendTextFieldMap_run.
  destruct (negb (instanceOf field ClassChronoField)); [discriminate |].
  destruct (isNullish textLookup); discriminate.
Qed.

(** Whatever [appendTextFieldMap] throws, it leaves the store as it was. *)
Lemma appendTextFieldMap_keeps_store this field textLookup h :
  (appendTextFieldMap this field textLookup h).2 = h.
Proof.
  rewrite appendTextFieldMap_run.
  destruct (negb (instanceOf field ClassChronoField)); [reflexivity |].
  destruct (isNullish textLookup); reflexivity.
Qed.

(** A throwing run of [appendTextFieldStyle] stopped at an argument check,
    before [_appendInternal]. *)
Lemma appendTextFieldStyle_throw_keeps_store this field textStyle h e h' :
  appendTextFieldStyle this field textStyle h = (Throw e, h') -> h' = h.
Proof.
  rewrite appendTextFieldStyle_run.
  destruct (negb (instanceOf field ClassChronoField)); [intros [= _ <-]; reflexivity |].
  destruct (negb (instanceOf textStyle ClassTextStyle)); [intros [= _ <-]; reflexivity |].
  discriminate.
Qed.

Lemma notImplemented_classified :
  isNotImplementedError (IllegalArgumentException notImplementedMessage) = true.
Proof. reflexivity. Qed.

Lemma argumentError_classified value parameterName :
  isInvalidArgumentError (argumentError value parameterName) = true.
Proof. reflexivity. Qed.

(** C2.  For every [field] that is a (non-null) ChronoField and every
    non-null [textLookup], [appendTextFieldMap(field, textLookup)] throws
    the not-implemented exception, whatever the builder holds; the store is
    left as it was, so no custom-map printer/parser is installed. *)
Theorem appendTextFieldMap_not_implemented this field textLookup h :
  instanceOf field ClassChronoField = true ->
  isNullish textLookup = false ->
  appendTextFieldMap this field textLookup h
    = (Throw (IllegalArgumentException notImplementedMessage), h)
  /\ isNotImplementedError (IllegalArgumentException notImplementedMessage) = true.
Proof.
  intros Hfield Hlookup. split; [| exact notImplemented_classified].
  rewrite appendTextFieldMap_run, Hfield, Hlookup. reflexivity.
Qed.

Lemma appendTextFieldMap_not_implemented_witness :
  appendTextFieldMap Sample.this (JChronoField Sample.MONTH_OF_YEAR)
      (JObject Sample.legacyMonths) Sample.heap
    = (Throw (IllegalArgumentException notImplementedMessage), Sample.heap)
  /\ isNotImplementedError (IllegalArgumentException notImplementedMessage) = true.
Proof. apply appendTextFieldMap_not_implemented; reflexivity. Defined.

(** C3.  In every builder state, [appendLocalizedOffset()] and
    [appendZoneText()] throw at once: the completion is the not-implemented
    exception (the specification's NotImplementedError, an
    [IllegalArgumentException] with the not-implemented message in the code)
    and the store, hence everything appended before, is untouched. *)
Theorem placeholders_always_throw this h :
  appendLocalizedOffset this h
    = (Throw (IllegalArgumentException notImplementedMessage), h) /\
  appendZoneText this h
    = (Throw (IllegalArgumentException notImplementedMessage), h) /\
  isNotImplementedError (IllegalArgumentException notImplementedMessage) = true.
Proof. split; [| split]; reflexivity. Qed.

(** C4.  Argument validation happens in the call.  If [field] is not a
    ChronoField (null and undefined included), each form of the append-text
    operation, and [appendText] whatever its second argument, throws the
    argument error for "field" and appends nothing.  If [field] is a
    ChronoField and [textStyle] is not a TextStyle (null and undefined
    included), the style form throws the argument error for "textStyle" and
    appends nothing. *)
Theorem append_text_validates_arguments this field styleOrMap h :
  (instanceOf field ClassChronoField = false ->
     appendTextField this field h = (Throw (argumentError field "field"), h) /\
     appendTextFieldStyle this field styleOrMap h = (Throw (argumentError field "field"), h) /\
     appendTextFieldMap this field styleOrMap h = (Throw (argumentError field "field"), h) /\
     appendText this field styleOrMap h = (Throw (argumentError field "field"), h)) /\
  (instanceOf field ClassChronoField = true ->
   instanceOf styleOrMap ClassTextStyle = false ->
     appendTextFieldStyle this field styleOrMap h
       = (Throw (argumentError styleOrMap "textStyle"), h)) /\
  isInvalidArgumentError (argumentError field "field") = true /\
  isInvalidArgumentError (argumentError styleOrMap "textStyle") = true.
Proof.
  split; [| split; [| split; reflexivity]].
  - intros Hfield.
    assert (Hstyle : forall textStyle,
      appendTextFieldStyle this field textStyle h = (Throw (argumentError field "field"), h)).
    { intros textStyle. rewrite appendTextFieldStyle_run, Hfield. reflexivity. }
    assert (Hmap : appendTextFieldMap this field styleOrMap h
                   = (Throw (argumentError field "field"), h)).
    { rewrite appendTextFieldMap_run, Hfield. reflexivity. }
    repeat split.
    + apply Hstyle.
    + apply Hstyle.
    + exact Hmap.
    + rewrite appendText_run.
      destruct (isUndefined styleOrMap); [apply Hstyle |].
      destruct (instanceOf styleOrMap ClassTextStyle); [apply Hstyle | exact Hmap].
  - intros Hfield Hstyle. rewrite appendTextFieldStyle_run, Hfield, Hstyle. reflexivity.
Qed.

Lemma append_text_validates_arguments_witness :
  (appendTextField Sample.this null Sample.heap
     = (Throw (InvalidArgumentError NullArgument "field"), Sample.heap) /\
   appendText Sample.this (JString "month") (JTextStyle SHORT) Sample.heap
     = (Throw (InvalidArgumentError WrongInstance "field"), Sample.heap)) /\
  appendTextFieldStyle Sample.this (JChronoField Sample.MONTH_OF_YEAR) (JNumber 4) Sample.heap
     = (Throw (InvalidArgumentError WrongInstance "textStyle"), Sample.heap).
Proof.
  split; [split |].
  - apply (append_text_validates_arguments Sample.this null undefined Sample.heap).
    reflexivity.
  - apply (append_text_validates_arguments Sample.this (JString "month") (JTextStyle SHORT)
             Sample.heap).
    reflexivity.
  - apply (append_text_validates_arguments Sample.this (JChronoField Sample.MONTH_OF_YEAR)
             (JNumber 4) Sample.heap); reflexivity.
Defined.

(** C5.  [appendText(field, styleOrMap)] picks its form by the shape of
    [styleOrMap] alone: undefined (or absent) behaves as
    [appendTextField(field)], a TextStyle as
    [appendTextFieldStyle(field, styleOrMap)], anything else as
    [appendTextFieldMap(field, styleOrMap)]. *)
Theorem appendText_dispatch this field styleOrMap h :
  (isUndefined styleOrMap = true ->
     appendText this field styleOrMap h = appendTextField this field h) /\
  (instanceOf styleOrMap ClassTextStyle = true ->
     appendText this field styleOrMap h = appendTextFieldStyle this field styleOrMap h) /\
  (isUndefined styleOrMap = false ->
   instanceOf styleOrMap ClassTextStyle = false ->
     appendText this field styleOrMap h = appendTextFieldMap this field styleOrMap h).
Proof.
  unfold appendText. repeat split.
  - intros ->. reflexivity.
  - intros Hstyle. rewrite Hstyle. destruct styleOrMap; try discriminate Hstyle. reflexivity.
  - intros -> ->. reflexivity.
Qed.

Lemma appendText_dispatch_witness :
  appendText Sample.this (JChronoField Sample.MONTH_OF_YEAR) undefined Sample.heap
    = appendTextField Sample.this (JChronoField Sample.MONTH_OF_YEAR) Sample.heap /\
  appendText Sample.this (JChronoField Sample.MONTH_OF_YEAR) (JTextStyle NARROW) Sample.heap
    = appendTextFieldStyle Sample.this (JChronoField Sample.MONTH_OF_YEAR) (JTextStyle NARROW)
        Sample.heap /\
  appendText Sample.this (JChronoField Sample.MONTH_OF_YEAR) (JString "MMM") Sample.heap
    = appendTextFieldMap Sample.this (JChronoField Sample.MONTH_OF_YEAR) (JString "MMM")
        Sample.heap.
Proof.
  split; [| split].
  - apply (appendText_dispatch Sample.this (JChronoField Sample.MONTH_OF_YEAR) undefined
             Sample.heap).
    reflexivity.
  - apply (appendText_dispatch Sample.this (JChronoField Sample.MONTH_OF_YEAR)
             (JTextStyle NARROW) Sample.heap).
    reflexivity.
  - apply (appendText_dispatch Sample.this (JChronoField Sample.MONTH_OF_YEAR)
             (JString "MMM") Sample.heap); reflexivity.
Defined.

(** C6.  For every ChronoField [f], the one-argument form is the style form
    with FULL: [appendTextField(f)] and [appendText(f)] run as
    [appendTextFieldStyle(f, TextStyle.FULL)], which returns the builder
    after appending the FULL-style text printer/parser of [f]. *)
Theorem appendTextField_defaults_to_FULL this (f : ChronoField) h :
  appendTextField this (JChronoField f) h
    = appendTextFieldStyle this (JChronoField f) (JTextStyle FULL) h /\
  appendText this (JChronoField f) undefined h
    = appendTextFieldStyle this (JChronoField f) (JTextStyle FULL) h /\
  appendTextFieldStyle this (JChronoField f) (JTextStyle FULL) h
    = (Normal (JBuilder this),
       appended this
         (TextPrinterParser (JChronoField f) (JTextStyle FULL) CldrDateTimeTextProvider) h).
Proof. split; [| split]; reflexivity. Qed.

(** C7.  Whichever way the append-text operation is entered, through
    [appendText] or through one of its three forms directly, a call that
    completes normally returns the builder it was called on.  (The custom-map
    form has no normal completion, see [appendTextFieldMap_never_returns];
    the style forms have, as the instance below shows.) *)
Theorem append_text_returns_this this field arg h v h' :
  appendText this field arg h = (Normal v, h') \/
  appendTextField this field h = (Normal v, h') \/
  appendTextFieldStyle this field arg h = (Normal v, h') \/
  appendTextFieldMap this field arg h = (Normal v, h') ->
  v = JBuilder this.
Proof.
  assert (Hstyle : forall textStyle,
    appendTextFieldStyle this field textStyle h = (Normal v, h') -> v = JBuilder this).
  { intros textStyle. rewrite appendTextFieldStyle_run.
    destruct (negb (instanceOf field ClassChronoField)); [discriminate |].
    destruct (negb (instanceOf textStyle ClassTextStyle)); [discriminate |].
    intros [= <- _]. reflexivity. }
  intros [Hrun | [Hrun | [Hrun | Hrun]]].
  - rewrite appendText_run in Hrun.
    destruct (isUndefined arg); [exact (Hstyle _ Hrun) |].
    destruct (instanceOf arg ClassTextStyle); [exact (Hstyle _ Hrun) |].
    exfalso. exact (appendTextFieldMap_never_returns _ _ _ _ _ _ Hrun).
  - exact (Hstyle _ Hrun).
  - exact (Hstyle _ Hrun).
  - exfalso. exact (appendTextFieldMap_never_returns _ _ _ _ _ _ Hrun).
Qed.

Lemma append_text_returns_this_witness :
  exists v h',
    appendTextFieldStyle Sample.this (JChronoField Sample.MONTH_OF_YEAR) (JTextStyle SHORT)
      Sample.heap = (Normal v, h') /\
    v = JBuilder Sample.this.
Proof.
  eexists _, _. split; [reflexivity |].
  apply (append_text_returns_this Sample.this (JChronoField Sample.MONTH_OF_YEAR)
           (JTextStyle SHORT) Sample.heap _
           (appended Sample.this
              (TextPrinterParser (JChronoField Sample.MONTH_OF_YEAR) (JTextStyle SHORT)
                 CldrDateTimeTextProvider) Sample.heap)).
  right. right. left. reflexivity.
Defined.

(** C9.  For every ChronoField [f], [appendText(f, null)] goes to the
    custom-map form, since null is neither undefined nor a TextStyle, and
    there fails the null check of "textLookup"; it does not behave as the
    default form, which would have appended a printer/parser. *)
Theorem appendText_null_is_map_form this (f : ChronoField) h :
  appendText this (JChronoField f) null h
    = appendTextFieldMap this (JChronoField f) null h /\
  appendText this (JChronoField f) null h
    = (Throw (InvalidArgumentError NullArgument "textLookup"), h) /\
  appendText this (JChronoField f) null h <> appendTextField this (JChronoField f) h.
Proof. split; [| split]; [reflexivity | reflexivity | discriminate]. Qed.

(** C10.  A failing builder operation appends nothing.  When
    [appendTextFieldMap], [appendLocalizedOffset] or [appendZoneText] throws
    (and equally when [appendText], [appendTextField] or
    [appendTextFieldStyle] does), the store after the call is the store
    before it, and so is the printer/parser sequence of every builder. *)
Theorem failing_operations_append_nothing this field arg h e h' :
  appendTextFieldMap this field arg h = (Throw e, h') \/
  appendLocalizedOffset this h = (Throw e, h') \/
  appendZoneText this h = (Throw e, h') \/
  appendText this field arg h = (Throw e, h') \/
  appendTextField this field h = (Throw e, h') \/
  appendTextFieldStyle this field arg h = (Throw e, h') ->
  h' = h /\ forall l, printerParsers h' l = printerParsers h l.
Proof.
  intros Hrun.
  assert (Hmap : appendTextFieldMap this field arg h = (Throw e, h') -> h' = h).
  { intros Hthrow.
    rewrite <- (appendTextFieldMap_keeps_store this field arg h), Hthrow. reflexivity. }
  assert (Hstore : h' = h).
  { destruct Hrun as [Hrun | [Hrun | [Hrun | [Hrun | [Hrun | Hrun]]]]].
    - exact (Hmap Hrun).
    - injection Hrun as _ <-. reflexivity.
    - injection Hrun as _ <-. reflexivity.
    - rewrite appendText_run in Hrun.
      destruct (isUndefined arg);
        [exact (appendTextFieldStyle_throw_keeps_store _ _ _ _ _ _ Hrun) |].
      destruct (instanceOf arg ClassTextStyle);
        [exact (appendTextFieldStyle_throw_keeps_store _ _ _ _ _ _ Hrun) | exact (Hmap Hrun)].
    - exact (appendTextFieldStyle_throw_keeps_store _ _ _ _ _ _ Hrun).
    - exact (appendTextFieldStyle_throw_keeps_store _ _ _ _ _ _ Hrun). }
  split; [exact Hstore |]. intros l. rewrite Hstore. reflexivity.
Qed.

Lemma failing_operations_append_nothing_witness :
  exists e h',
    appendTextFieldMap Sample.this (JChronoField Sample.MONTH_OF_YEAR)
      (JObject Sample.legacyMonths) Sample.heap = (Throw e, h') /\
    h' = Sample.heap /\
    forall l, printerParsers h' l = printerParsers Sample.heap l.
Proof.
  eexists _, _. split; [reflexivity |].
  apply (failing_operations_append_nothing Sample.this (JChronoField Sample.MONTH_OF_YEAR)
           (JObject Sample.legacyMonths) Sample.heap
           (IllegalArgumentException notImplementedMessage) Sample.heap).
  left. reflexivity.
Defined.

(** C1, as the code has it.  For every ChronoField [f] and every map [m],
    [appendText(f, m)] throws the not-implemented exception and leaves the
    store as it was: no printer/parser, custom-map or other, is appended. *)
Theorem appendText_custom_map_throws this (f : ChronoField) (m : TextMapping) h :
  appendText this (JChronoField f) (JObject m) h
    = (Throw (IllegalArgumentException notImplementedMessage), h) /\
  isNotImplementedError (IllegalArgumentException notImplementedMessage) = true.
Proof. split; reflexivity. Qed.

(** C1, as stated, fails on the map of its own example: the call on
    [{1: "JNY", 2: "FBY"}] does not return, and the builder holds what it
    held before. *)
Lemma custom_map_is_not_installed :
  ~ installsCustomMap Sample.noData Sample.lowerCase parseDecimal Sample.ENGLISH
      Sample.this Sample.MONTH_OF_YEAR Sample.legacyMonths Sample.heap.
Proof.
  intros (h' & pp & Hrun & _).
  rewrite appendText_run in Hrun. simpl in Hrun.
  exact (appendTextFieldMap_never_returns _ _ _ _ _ _ Hrun).
Qed.

End BuilderFacts.

(** * Properties of the text engine *)

Section EngineFacts.

Import TextStore.


Implicit Types (c d : Text * Z) (cs : list (Text * Z)) (input text : Text)
  (m : TextMapping) (style : TextStyle).

(** ** The candidate order *)





(** ** Matching *)





(** ** From the store to the candidates *)



(** ** What a store that was built holds *)






(** ** The specification's examples, run on the model *)

Example longest_match_wins :
  parse Sample.noData Sample.lowerCase parseDecimal
    (CustomMapTextProvider [(6, text "Jan"); (1, text "January")])
    Sample.MONTH_OF_YEAR FULL Sample.ENGLISH (text "January 5") = Ok (Parsed 1 7).
Proof. reflexivity. Qed.

Example letter_case_is_ignored :
  parse Sample.data Sample.lowerCase parseDecimal CldrDateTimeTextProvider
    Sample.MONTH_OF_YEAR FULL Sample.ENGLISH (text "march") = Ok (Parsed 3 5) /\
  parse Sample.data Sample.lowerCase parseDecimal CldrDateTimeTextProvider
    Sample.MONTH_OF_YEAR FULL Sample.ENGLISH (text "MARCH") = Ok (Parsed 3 5).
Proof. split; reflexivity. Qed.

(** Letter case is ignored beyond ASCII, and a character counts once:
    "MÄRZ" matches the candidate "März", four characters long. *)
Example letter_case_beyond_ascii :
  parse Sample.data Sample.lowerCase parseDecimal CldrDateTimeTextProvider
    Sample.MONTH_OF_YEAR FULL Sample.GERMAN (text "M" ++ [196%N] ++ text "RZ")%list
    = Ok (Parsed 3 4).
Proof. reflexivity. Qed.

Example custom_map_engine :
  let provider := CustomMapTextProvider Sample.legacyMonths in
  print Sample.noData provider Sample.MONTH_OF_YEAR FULL Sample.ENGLISH 1
    = Ok (text "JNY") /\
  print Sample.noData provider Sample.MONTH_OF_YEAR FULL Sample.ENGLISH 3
    = Ok (text "3") /\
  parse Sample.noData Sample.lowerCase parseDecimal provider Sample.MONTH_OF_YEAR FULL
    Sample.ENGLISH (text "FBY") = Ok (Parsed 2 3) /\
  print Sample.noData provider Sample.MONTH_OF_YEAR SHORT Sample.ENGLISH 1
    = Failed UnsupportedStyleError.
Proof. cbv zeta. split; [| split; [| split]]; reflexivity. Qed.

Example numeric_fallback :
  print Sample.data CldrDateTimeTextProvider Sample.MONTH_OF_YEAR SHORT_STANDALONE
    Sample.ENGLISH (-7) = Ok (text "-7") /\
  parse Sample.data Sample.lowerCase parseDecimal CldrDateTimeTextProvider
    Sample.MONTH_OF_YEAR SHORT_STANDALONE Sample.ENGLISH (text "-7") = Ok (Parsed (-7) 2) /\
  parse Sample.data Sample.lowerCase parseDecimal CldrDateTimeTextProvider
    Sample.MONTH_OF_YEAR SHORT_STANDALONE Sample.ENGLISH (text "May") = Ok ParseFailure.
Proof. split; [| split]; reflexivity. Qed.

Example ambiguous_data_is_rejected :
  build [(NARROW, [(3, text "M"); (5, text "M")])] = Failed InvalidMappingError.
Proof. reflexivity. Qed.

(** Ambiguous data of one style is the failure of that style only: with two
    months sharing the NARROW text "M", the NARROW style has no store and
    the FULL style of the same field and locale prints and parses. *)
Example ambiguous_style_fails_alone :
  getText Sample.data CldrDateTimeTextProvider Sample.MONTH_OF_YEAR 3 NARROW Sample.ENGLISH
    = Failed InvalidMappingError /\
  print Sample.data CldrDateTimeTextProvider Sample.MONTH_OF_YEAR FULL Sample.ENGLISH 3
    = Ok (text "March") /\
  parse Sample.data Sample.lowerCase parseDecimal CldrDateTimeTextProvider
    Sample.MONTH_OF_YEAR FULL Sample.ENGLISH (text "March") = Ok (Parsed 3 5).
Proof. split; [| split]; reflexivity. Qed.

(** Two values whose texts differ in letter case only are both printed and
    parsed back: the text as written decides before letter case is
    ignored. *)
Example case_clash_round_trips :
  print Sample.data CldrDateTimeTextProvider Sample.AMPM_OF_DAY FULL Sample.ENGLISH 1
    = Ok (text "a") /\
  parse Sample.data Sample.lowerCase parseDecimal CldrDateTimeTextProvider
    Sample.AMPM_OF_DAY FULL Sample.ENGLISH (text "a") = Ok (Parsed 1 1) /\
  print Sample.data CldrDateTimeTextProvider Sample.AMPM_OF_DAY FULL Sample.ENGLISH 2
    = Ok (text "A") /\
  parse Sample.data Sample.lowerCase parseDecimal CldrDateTimeTextProvider
    Sample.AMPM_OF_DAY FULL Sample.ENGLISH (text "A") = Ok (Parsed 2 1).
Proof. split; [| split; [| split]]; reflexivity. Qed.

(** ** Print, then parse *)



End EngineFacts.

(** * Further properties of the builder methods *)

Section CallFacts.

Import CldrDateTimeFormatterBuilder.

Implicit Types (this other l : loc) (field arg : Value) (h : Heap) (call : MethodCall)
  (b : DateTimeFormatterBuilder).

(** ** One call *)

(** The store a call leaves: the one it found, with what the call
    contributes appended to the builder. *)
Lemma invoke_store this call h :
  (invoke this call h).2 = foldl (fun h' pp => appended this pp h') h (appendedBy call).
Proof.
  destruct call as [| | field arg | field | field arg | field arg]; simpl;
    try reflexivity.
  - rewrite appendText_run. unfold appendedBy, requested, styleUsed.
    destruct (isUndefined arg) eqn:Hundef.
    + rewrite appendTextFieldStyle_run. simpl. rewrite andb_true_r.
      destruct (instanceOf field ClassChronoField); reflexivity.
    + destruct (instanceOf arg ClassTextStyle) eqn:Hstyle.
      * rewrite appendTextFieldStyle_run, Hstyle. simpl. rewrite andb_true_r.
        destruct (instanceOf field ClassChronoField); reflexivity.
      * rewrite appendTextFieldMap_keeps_store, andb_false_r. reflexivity.
  - unfold appendTextField. rewrite appendTextFieldStyle_run.
    unfold appendedBy, requested. simpl. rewrite andb_true_r.
    destruct (instanceOf field ClassChronoField); reflexivity.
  - rewrite appendTextFieldStyle_run. unfold appendedBy, requested.
    destruct (instanceOf field ClassChronoField), (instanceOf arg ClassTextStyle);
      reflexivity.
  - apply appendTextFieldMap_keeps_store.
Qed.

(** The builder in the store after [_appendInternal]. *)
Lemma lookup_appended this l pp h :
  appended this pp h !! l
    = if decide (l = this)
      then (fun b => mkBuilder (_printerParsers b ++ [pp])) <$> h !! l
      else h !! l.
Proof.
  unfold appended, _appendInternal, update. simpl.
  destruct (decide (l = this)) as [-> | Hne].
  - apply lookup_alter_eq.
  - apply lookup_alter_ne. congruence.
Qed.

Lemma lookup_appended_list this l pps h :
  foldl (fun h' pp => appended this pp h') h pps !! l
    = if decide (l = this)
      then (fun b => mkBuilder (_printerParsers b ++ pps)) <$> h !! l
      else h !! l.
Proof.
  revert h. induction pps as [| pp pps IH]; intros h; simpl.
  - destruct (decide (l = this)); [| reflexivity].
    destruct (h !! l) as [[pps'] |]; simpl; [rewrite app_nil_r |]; reflexivity.
  - rewrite IH, lookup_appended.
    destruct (decide (l = this)); [| reflexivity].
    destruct (h !! l) as [[pps'] |]; simpl; [rewrite <- app_assoc |]; reflexivity.
Qed.

(** A call that returns returns the builder, and has appended the one
    printer/parser it contributes. *)
Lemma invoke_normal this call h v h' :
  invoke this call h = (Normal v, h') ->
  v = JBuilder this /\
  exists pp, appendedBy call = [pp] /\ h' = appended this pp h.
Proof.
  assert (Hstyle : forall field textStyle,
    appendTextFieldStyle this field textStyle h = (Normal v, h') ->
    v = JBuilder this /\
    exists pp,
      (if instanceOf field ClassChronoField && instanceOf textStyle ClassTextStyle
       then [TextPrinterParser field textStyle CldrDateTimeTextProvider] else []) = [pp] /\
      h' = appended this pp h).
  { intros field textStyle. rewrite appendTextFieldStyle_run.
    destruct (instanceOf field ClassChronoField); [| discriminate].
    destruct (instanceOf textStyle ClassTextStyle); [| discriminate].
    simpl. intros [= <- <-]. split; [reflexivity |]. eexists. split; reflexivity. }
  destruct call as [| | field arg | field | field arg | field arg]; simpl;
    try discriminate.
  - rewrite appendText_run. unfold appendedBy, requested, styleUsed.
    destruct (isUndefined arg); [apply Hstyle |].
    destruct (instanceOf arg ClassTextStyle) eqn:Harg.
    + intros Hrun. destruct (Hstyle _ _ Hrun) as [Hv Hpp]. rewrite Harg in Hpp.
      split; assumption.
    + intros Hrun. exfalso. exact (appendTextFieldMap_never_returns _ _ _ _ _ _ Hrun).
  - apply Hstyle.
  - apply Hstyle.
  - intros Hrun. exfalso. exact (appendTextFieldMap_never_returns _ _ _ _ _ _ Hrun).
Qed.

(** Every printer/parser a call contributes is well formed. *)
Lemma appendedBy_wellFormed call : forallb wellFormed (appendedBy call) = true.
Proof.
  unfold appendedBy. destruct (requested call) as [[field textStyle] |]; [| reflexivity].
  destruct (instanceOf field ClassChronoField && instanceOf textStyle ClassTextStyle) eqn:Hok;
    [| reflexivity].
  simpl. rewrite Hok. reflexivity.
Qed.

(** ** Call sequences *)

Lemma lookup_runScript this l calls h :
  runScript this calls h !! l
    = if decide (l = this)
      then (fun b => mkBuilder (_printerParsers b ++ flat_map appendedBy calls)) <$> h !! l
      else h !! l.
Proof.
  revert h. induction calls as [| call calls IH]; intros h; simpl.
  - apply (lookup_appended_list this l [] h).
  - rewrite IH, invoke_store, lookup_appended_list.
    destruct (decide (l = this)); [| reflexivity].
    destruct (h !! l) as [[pps] |]; simpl; [rewrite <- app_assoc |]; reflexivity.
Qed.

(** X1.  [appendText(field, styleOrMap)] returns exactly when [field] is a
    ChronoField and [styleOrMap] is undefined or a TextStyle; in every other
    case it throws. *)
Theorem appendText_returns_exactly_when this field arg h :
  completesNormally (appendText this field arg h)
    = instanceOf field ClassChronoField && (isUndefined arg || instanceOf arg ClassTextStyle).
Proof. destruct field, arg; reflexivity. Qed.

(** X2.  The two ways [appendText(field, styleOrMap)] fails.  It throws the
    not-implemented exception exactly when [field] is a ChronoField and
    [styleOrMap] is neither null, nor undefined, nor a TextStyle; it throws
    an argument error exactly when [field] is not a ChronoField or
    [styleOrMap] is null. *)
Theorem appendText_failure_kinds this field arg h :
  throwsSome isNotImplementedError (appendText this field arg h)
    = instanceOf field ClassChronoField && negb (isNullish arg)
      && negb (instanceOf arg ClassTextStyle) /\
  throwsSome isInvalidArgumentError (appendText this field arg h)
    = negb (instanceOf field ClassChronoField) || (isNullish arg && negb (isUndefined arg)).
Proof. destruct field, arg; split; reflexivity. Qed.

(** X3.  When [appendText(field, styleOrMap)] returns, all it has done to
    the store is one call of [_appendInternal], on the builder it was called
    on, with [new TextPrinterParser(field, style, new
    CldrDateTimeTextProvider())], the style being the one given, or FULL
    when none was; that field is a ChronoField and that style a
    TextStyle. *)
Theorem appendText_hands_over_one_unit this field arg h v h' :
  appendText this field arg h = (Normal v, h') ->
  h' = appended this
         (TextPrinterParser field (styleUsed arg) CldrDateTimeTextProvider) h /\
  wellFormed (TextPrinterParser field (styleUsed arg) CldrDateTimeTextProvider) = true.
Proof.
  intros Hrun.
  destruct (invoke_normal this (AppendText field arg) h v h' Hrun) as (_ & pp & Hpp & ->).
  pose proof (appendedBy_wellFormed (AppendText field arg)) as Hwf. rewrite Hpp in Hwf.
  unfold appendedBy, requested in Hpp.
  destruct (instanceOf field ClassChronoField && instanceOf (styleUsed arg) ClassTextStyle);
    [| discriminate].
  injection Hpp as <-. split; [reflexivity |].
  simpl in Hwf. rewrite andb_true_r in Hwf. exact Hwf.
Qed.

Lemma appendText_hands_over_one_unit_witness :
  snd (appendText Sample.this (JChronoField Sample.MONTH_OF_YEAR) (JTextStyle SHORT)
         Sample.heap)
    = appended Sample.this
        (TextPrinterParser (JChronoField Sample.MONTH_OF_YEAR) (JTextStyle SHORT)
           CldrDateTimeTextProvider) Sample.heap /\
  wellFormed (TextPrinterParser (JChronoField Sample.MONTH_OF_YEAR) (JTextStyle SHORT)
                CldrDateTimeTextProvider) = true.
Proof.
  apply (appendText_hands_over_one_unit Sample.this (JChronoField Sample.MONTH_OF_YEAR)
           (JTextStyle SHORT) Sample.heap (JBuilder Sample.this)).
  reflexivity.
Defined.

(** X4.  Chaining.  When a call of [appendText] returns and [appendText] is
    then called on the value it returned, and returns too, both calls ran on
    the same builder, the second returns that builder again, and what the
    two calls did to the store is two calls of [_appendInternal] on that
    builder, with the printer/parser of the first call and then with that of
    the second. *)
Theorem chained_appendText_keeps_call_order
    this l field1 arg1 field2 arg2 h h1 h2 v2 :
  appendText this field1 arg1 h = (Normal (JBuilder l), h1) ->
  appendText l field2 arg2 h1 = (Normal v2, h2) ->
  l = this /\ v2 = JBuilder this /\
  h2 = appended this (TextPrinterParser field2 (styleUsed arg2) CldrDateTimeTextProvider)
         (appended this (TextPrinterParser field1 (styleUsed arg1) CldrDateTimeTextProvider)
            h).
Proof.
  intros Hrun1 Hrun2.
  destruct (invoke_normal this (AppendText field1 arg1) h _ h1 Hrun1)
    as ([= ->] & pp1 & Hpp1 & ->).
  destruct (invoke_normal this (AppendText field2 arg2) _ v2 h2 Hrun2)
    as (-> & pp2 & Hpp2 & ->).
  split; [reflexivity |]. split; [reflexivity |].
  unfold appendedBy, requested in Hpp1, Hpp2.
  destruct (instanceOf field1 ClassChronoField && instanceOf (styleUsed arg1) ClassTextStyle);
    [| discriminate].
  destruct (instanceOf field2 ClassChronoField && instanceOf (styleUsed arg2) ClassTextStyle);
    [| discriminate].
  injection Hpp1 as <-. injection Hpp2 as <-. reflexivity.
Qed.

Lemma chained_appendText_keeps_call_order_witness :
  exists h1 h2,
    appendText Sample.this (JChronoField Sample.MONTH_OF_YEAR) undefined Sample.heap
      = (Normal (JBuilder Sample.this), h1) /\
    appendText Sample.this (JChronoField Sample.AMPM_OF_DAY) (JTextStyle NARROW) h1
      = (Normal (JBuilder Sample.this), h2) /\
    h2 = appended Sample.this
           (TextPrinterParser (JChronoField Sample.AMPM_OF_DAY) (JTextStyle NARROW)
              CldrDateTimeTextProvider)
           (appended Sample.this
              (TextPrinterParser (JChronoField Sample.MONTH_OF_YEAR) (JTextStyle FULL)
                 CldrDateTimeTextProvider) Sample.heap).
Proof.
  eexists _, _. split; [reflexivity |]. split; [reflexivity |].
  eapply (chained_appendText_keeps_call_order Sample.this Sample.this
            (JChronoField Sample.MONTH_OF_YEAR) undefined
            (JChronoField Sample.AMPM_OF_DAY) (JTextStyle NARROW)
            Sample.heap _ _ (JBuilder Sample.this)); reflexivity.
Defined.

(** X5.  Whatever calls a client makes on a builder, with whatever
    arguments and whether they return or throw, a builder whose text
    printer/parsers all hold a ChronoField and a TextStyle stays such a
    builder: the argument checks run before the printer/parser is built. *)
Theorem calls_keep_printerParsers_well_formed this l calls h :
  forallb wellFormed (printerParsers h l) = true ->
  forallb wellFormed (printerParsers (runScript this calls h) l) = true.
Proof.
  unfold printerParsers. rewrite lookup_runScript.
  destruct (decide (l = this)); [| intros Hwf; exact Hwf].
  destruct (h !! l) as [[pps] |]; simpl; [| reflexivity].
  intros Hwf. rewrite forallb_app, Hwf. simpl.
  induction calls as [| call calls IH]; simpl; [reflexivity |].
  rewrite forallb_app, appendedBy_wellFormed. exact IH.
Qed.

Lemma calls_keep_printerParsers_well_formed_witness :
  forallb wellFormed
    (printerParsers
       (runScript Sample.this
          [AppendText (JString "month") (JTextStyle SHORT);
           AppendTextFieldStyle (JChronoField Sample.MONTH_OF_YEAR) (JString "SHORT");
           AppendText (JChronoField Sample.MONTH_OF_YEAR) (JTextStyle SHORT);
           AppendZoneText]
          Sample.heap)
       Sample.this) = true.
Proof.
  apply (calls_keep_printerParsers_well_formed Sample.this Sample.this). reflexivity.
Defined.

(** X7.  Whether a call returns or throws, and what it returns or throws,
    depends on its arguments only, not on what the store holds: no method
    looks at the builder before it decides. *)
Theorem completion_ignores_store this call h1 h2 :
  (invoke this call h1).1 = (invoke this call h2).1.
Proof.
  destruct call as [| | field arg | field | field arg | field arg]; simpl;
    try reflexivity.
  - rewrite !appendText_run.
    destruct (isUndefined arg); [rewrite !appendTextFieldStyle_run |
      destruct (instanceOf arg ClassTextStyle);
        [rewrite !appendTextFieldStyle_run | rewrite !appendTextFieldMap_run]].
    all: repeat match goal with |- context [if ?c then _ else _] => destruct c end;
      reflexivity.
  - unfold appendTextField. rewrite !appendTextFieldStyle_run.
    repeat match goal with |- context [if ?c then _ else _] => destruct c end; reflexivity.
  - rewrite !appendTextFieldStyle_run.
    repeat match goal with |- context [if ?c then _ else _] => destruct c end; reflexivity.
  - rewrite !appendTextFieldMap_run.
    repeat match goal with |- context [if ?c then _ else _] => destruct c end; reflexivity.
Qed.

(** X8.  A sequence of calls on a builder, some returning and some
    throwing, does to the store exactly this: one call of [_appendInternal]
    on that builder per call that returned, with the printer/parser of that
    call, in call order. *)
Theorem calls_hand_over_units_in_call_order this calls h :
  runScript this calls h
    = foldl (fun h' pp => appended this pp h') h (flat_map appendedBy calls).
Proof.
  revert h. induction calls as [| call calls IH]; intros h; simpl; [reflexivity |].
  rewrite IH, invoke_store, foldl_app. reflexivity.
Qed.

(** X9.  Called directly, [appendTextFieldMap(field, textLookup)] never
    returns.  It throws the not-implemented exception exactly when both
    arguments pass their checks ([field] a ChronoField, [textLookup] neither
    null nor undefined) and an argument error in every other case: the
    placeholder is only reached with valid arguments. *)
Theorem appendTextFieldMap_failure_kinds this field arg h :
  completesNormally (appendTextFieldMap this field arg h) = false /\
  throwsSome isNotImplementedError (appendTextFieldMap this field arg h)
    = instanceOf field ClassChronoField && negb (isNullish arg) /\
  throwsSome isInvalidArgumentError (appendTextFieldMap this field arg h)
    = negb (instanceOf field ClassChronoField) || isNullish arg.
Proof. destruct field, arg; (split; [| split]); reflexivity. Qed.

End CallFacts.
